(** * Pose-analysis backend: the upload route and the analysis adapter

    A shallow embedding of [pose_analysis_backend/analysis/pose_analysis.py]
    and [pose_analysis_backend/main.py].

    The adapter calls three third-party libraries (Pillow for decoding,
    OpenCV for the channel swap, MediaPipe for inference) and the route is
    served by FastAPI.  What those libraries compute is not part of the
    repository: decoding and inference are fields of the [External]
    interface, and the general facts hold for every instance of it; a
    few sample instances run the adapter on concrete uploads.  The
    channel swap and the array view of a decoded image are plain data
    shuffles and are written out.

    Python exceptions are the [Raise] outcome of a small state-and-error
    monad; the state is the log of calls made on the pose session, so that
    what the model was handed can be stated. *)

From Stdlib Require Import List String ZArith Bool Lia Floats.
From Stdlib Require Import Strings.Byte Lists.Finite.
Import ListNotations.

Set Implicit Arguments.
Set Warnings "-register-all".
Open Scope string_scope.
Open Scope Z_scope.
Open Scope list_scope.

(** ** Python values *)

(** The adapter builds its results from dict and list literals; a dict
    keeps its keys in insertion order, so it is an association list. *)
Inductive pyval : Type :=
| PyBool (b : bool)
| PyInt (n : Z)
| PyFloat (f : float)
| PyStr (s : string)
| PyList (items : list pyval)
| PyDict (items : list (string * pyval)).

Definition bytes := list byte.

Record exception : Type := mkException
  { exc_type : string;
    exc_msg : string }.

(** [d[key]] read as [d.get(key)]: the first binding of [key]. *)
Fixpoint assoc_get (key : string) (items : list (string * pyval)) : option pyval :=
  match items with
  | [] => None
  | (k, v) :: rest => if String.eqb k key then Some v else assoc_get key rest
  end.

Definition dict_get (key : string) (d : pyval) : option pyval :=
  match d with
  | PyDict items => assoc_get key items
  | _ => None
  end.

Definition dict_keys (d : pyval) : list string :=
  match d with
  | PyDict items => map fst items
  | _ => []
  end.

(** ** Images *)

(** A pixel of a Pillow image in mode "RGB". *)
Record colour : Type := mkColour
  { red : Z;
    green : Z;
    blue : Z }.

(** A decoded image in mode "RGB": rows of pixels. *)
Definition RGBImage := list (list colour).

(** One cell of a height x width x 3 array: channels 0, 1 and 2. *)
Definition pixel := (Z * Z * Z)%type.

Definition ndarray := list (list pixel).

Inductive channel_order : Type := RGB | BGR.

Definition layout (order : channel_order) (c : colour) : pixel :=
  match order with
  | RGB => (red c, green c, blue c)
  | BGR => (blue c, green c, red c)
  end.

Definition grid_in (order : channel_order) (image : RGBImage) : ndarray :=
  map (map (layout order)) image.

(** [np.array(image)] of a mode-"RGB" image: channel 0 is red. *)
Definition np_array (image : RGBImage) : ndarray :=
  map (map (fun c => (red c, green c, blue c))) image.

(** The two conversion codes that only reorder channels; OpenCV gives
    both the same number, and both exchange channels 0 and 2. *)
Inductive ColorConversionCode : Type := COLOR_BGR2RGB | COLOR_RGB2BGR.

Definition swap_channels (p : pixel) : pixel :=
  let '(c0, c1, c2) := p in (c2, c1, c0).

Definition cvtColor (src : ndarray) (code : ColorConversionCode) : ndarray :=
  match code with
  | COLOR_BGR2RGB | COLOR_RGB2BGR => map (map swap_channels) src
  end.

(** Modelled from the spec: the input contract of the inference model,
    which is a third-party library (section 6: "given a single RGB pixel
    grid, return zero-or-one set of body landmarks"). *)
Definition model_channel_order : channel_order := RGB.

(** ** Landmarks *)

Module NormalizedLandmark.
Record t : Type := mk
  { x : float;
    y : float;
    z : float;
    visibility : float }.
End NormalizedLandmark.

Record NormalizedLandmarkList : Type := mkLandmarkList
  { landmark : list NormalizedLandmark.t }.

(** What [pose.process] returns; [pose_landmarks] is [None] when nothing
    was detected.  The other fields of the library's result are never
    read by the adapter. *)
Record SolutionOutputs : Type := mkOutputs
  { pose_landmarks : option NormalizedLandmarkList }.

(** Truth value of [results.pose_landmarks]: [None] is false; a protobuf
    message defines neither [__bool__] nor [__len__], so every message
    object is true, whatever it holds. *)
Definition truthy (o : option NormalizedLandmarkList) : bool :=
  match o with
  | None => false
  | Some _ => true
  end.

(** [results.pose_landmarks.landmark]; on [None] the attribute lookup
    raises. *)
Definition landmark_of (o : option NormalizedLandmarkList)
  : exception + list NormalizedLandmark.t :=
  match o with
  | Some lms => inr (landmark lms)
  | None => inl (mkException "AttributeError"
                   "'NoneType' object has no attribute 'landmark'")
  end.

(** ** Effects *)

(** Calls made on a pose session, oldest first. *)
Inductive event : Type :=
| PoseEnter (static_image_mode : bool)
| PoseProcess (image : ndarray)
| PoseExit.

Definition world := list event.

Inductive outcome (A : Type) : Type :=
| Return (a : A)
| Raise (e : exception).

Arguments Return {A} a.
Arguments Raise {A} e.

Definition M (A : Type) : Type := world -> outcome A * world.

Definition ret {A : Type} (a : A) : M A := fun w => (Return a, w).

Definition bind {A B : Type} (m : M A) (k : A -> M B) : M B :=
  fun w =>
    match m w with
    | (Return a, w') => k a w'
    | (Raise e, w') => (Raise e, w')
    end.

Definition lift {A : Type} (r : exception + A) : M A :=
  fun w =>
    match r with
    | inl e => (Raise e, w)
    | inr a => (Return a, w)
    end.

Declare Scope py_scope.
Delimit Scope py_scope with py.
Notation "x <- m ;; k" := (bind m (fun x => k))
  (at level 61, m at next level, right associativity) : py_scope.

(** ** The third-party libraries *)

Class External : Type := mkExternal
  { (** an image as [Image.open] leaves it, in whatever mode the file has *)
    PILImage : Type;
    (** [Image.open(io.BytesIO(data))] *)
    Image_open : bytes -> exception + PILImage;
    (** [image.convert("RGB")], which loads the pixel data *)
    Image_convert_RGB : PILImage -> exception + RGBImage;
    (** one inference pass of a pose session created with the given
        [static_image_mode]; the calls logged so far are passed too, so
        that a model whose answer drifts from call to call is an
        instance *)
    Pose_infer : world -> bool -> ndarray -> exception + SolutionOutputs }.

(** The handle bound by [with mp_pose.Pose(...) as pose]. *)
Record Pose : Type := mkPose
  { static_image_mode : bool }.

Section Adapter.

Context {ext : External}.

Local Open Scope py_scope.

Definition Pose_process (pose : Pose) (image : ndarray) : M SolutionOutputs :=
  fun w =>
    (match Pose_infer w (static_image_mode pose) image with
     | inl e => Raise e
     | inr results => Return results
     end, w ++ [PoseProcess image]).

(** [with mp_pose.Pose(static_image_mode=...) as pose: body]; [__exit__]
    runs whether the body returns or raises. *)
Definition with_Pose {A : Type} (mode : bool) (body : Pose -> M A) : M A :=
  fun w =>
    let '(r, w') := body (mkPose mode) (w ++ [PoseEnter mode]) in
    (r, w' ++ [PoseExit]).

(** [enumerate(iterable, start)] *)
Fixpoint enumerate_from {A : Type} (start : Z) (l : list A) : list (Z * A) :=
  match l with
  | [] => []
  | a :: rest => (start, a) :: enumerate_from (start + 1) rest
  end.

Definition enumerate {A : Type} (l : list A) : list (Z * A) := enumerate_from 0 l.

(** The dict literal appended at each turn of the loop. *)
Definition keypoint_record (id : Z) (lm : NormalizedLandmark.t) : pyval :=
  PyDict [("id", PyInt id);
          ("x", PyFloat (NormalizedLandmark.x lm));
          ("y", PyFloat (NormalizedLandmark.y lm));
          ("z", PyFloat (NormalizedLandmark.z lm));
          ("visibility", PyFloat (NormalizedLandmark.visibility lm))].

(** [keypoints = []] followed by the [for] loop with its [append]. *)
Definition collect_keypoints (landmarks : list NormalizedLandmark.t) : list pyval :=
  fold_left (fun keypoints '(id, lm) => keypoints ++ [keypoint_record id lm])
            (enumerate landmarks) [].

Definition no_pose_detected : pyval :=
  PyDict [("success", PyBool false); ("message", PyStr "No pose detected")].

Definition pose_found (keypoints : list pyval) : pyval :=
  PyDict [("success", PyBool true); ("keypoints", PyList keypoints)].

Definition analyze_pose (image_data : bytes) : M pyval :=
  opened <- lift (Image_open image_data) ;;
  image <- lift (Image_convert_RGB opened) ;;
  let image_np := np_array image in
  with_Pose true (fun pose =>
    results <- Pose_process pose (cvtColor image_np COLOR_RGB2BGR) ;;
    if negb (truthy (pose_landmarks results)) then
      ret no_pose_detected
    else
      landmarks <- lift (landmark_of (pose_landmarks results)) ;;
      ret (pose_found (collect_keypoints landmarks))).

(** ** The route ([main.py]) *)

(** The upload as the framework hands it to the route: [file] is the
    spooled body, read from its start. *)
Record UploadFile : Type := mkUploadFile
  { filename : string;
    content_type : string;
    file : bytes }.

(** [await file.read()] with no size: everything up to the end. *)
Definition UploadFile_read (upload : UploadFile) : M bytes := ret (file upload).

Definition analyze_image (upload : UploadFile) : M pyval :=
  contents <- UploadFile_read upload ;;
  result <- analyze_pose contents ;;
  ret result.

Inductive http_body : Type :=
| JSONBody (v : pyval)
| TextBody (s : string).

Record http_response : Type := mkResponse
  { status_code : Z;
    body : http_body }.

(** Modelled from the spec: what the web framework, a third-party
    library, does with the route (sections 4.1 and 7): the structure the
    route returns is serialized as the response body with a success
    status, and an exception the route lets through ends the request in a
    generic server error. *)
Definition post_analyze_image (upload : UploadFile) (w : world)
  : http_response * world :=
  match analyze_image upload w with
  | (Return result, w') => (mkResponse 200 (JSONBody result), w')
  | (Raise _, w') => (mkResponse 500 (TextBody "Internal Server Error"), w')
  end.

End Adapter.

(** ** Reading results and logs *)

Definition success_tag (v : pyval) : option bool :=
  match dict_get "success" v with
  | Some (PyBool b) => Some b
  | _ => None
  end.

Definition keypoints_of (v : pyval) : option (list pyval) :=
  match dict_get "keypoints" v with
  | Some (PyList kps) => Some kps
  | _ => None
  end.

Definition record_id (r : pyval) : option Z :=
  match dict_get "id" r with
  | Some (PyInt n) => Some n
  | _ => None
  end.

Definition record_float (key : string) (r : pyval) : option float :=
  match dict_get key r with
  | Some (PyFloat f) => Some f
  | _ => None
  end.

Definition keypoint_count (v : pyval) : option nat :=
  option_map (@List.length pyval) (keypoints_of v).

Definition keypoint_ids (v : pyval) : option (list (option Z)) :=
  option_map (map record_id) (keypoints_of v).

Fixpoint keys_eqb (ks ks' : list string) : bool :=
  match ks, ks' with
  | [], [] => true
  | k :: rest, k' :: rest' => String.eqb k k' && keys_eqb rest rest'
  | _, _ => false
  end.

Definition is_some {A : Type} (o : option A) : bool :=
  match o with
  | Some _ => true
  | None => false
  end.

(** A record with exactly the keys id, x, y, z, visibility: an int and
    four floats. *)
Definition keypoint_shape (r : pyval) : bool :=
  keys_eqb (dict_keys r) ["id"; "x"; "y"; "z"; "visibility"]
  && is_some (record_id r)
  && is_some (record_float "x" r)
  && is_some (record_float "y" r)
  && is_some (record_float "z" r)
  && is_some (record_float "visibility" r).

(** [{"success": true, "keypoints": [record, ...]}] and nothing else. *)
Definition success_shape (v : pyval) : bool :=
  keys_eqb (dict_keys v) ["success"; "keypoints"]
  && match success_tag v with
     | Some true => true
     | _ => false
     end
  && match keypoints_of v with
     | Some kps => forallb keypoint_shape kps
     | None => false
     end.

(** [{"success": false, "message": "No pose detected"}] and nothing else. *)
Definition failure_shape (v : pyval) : bool :=
  keys_eqb (dict_keys v) ["success"; "message"]
  && match success_tag v with
     | Some false => true
     | _ => false
     end
  && match dict_get "message" v with
     | Some (PyStr s) => String.eqb s "No pose detected"
     | _ => false
     end.

Definition in_unit_interval (f : float) : bool :=
  (PrimFloat.leb 0 f && PrimFloat.leb f 1)%float.

Definition landmark_in_range (lm : NormalizedLandmark.t) : bool :=
  in_unit_interval (NormalizedLandmark.x lm)
  && in_unit_interval (NormalizedLandmark.y lm)
  && is_finite (NormalizedLandmark.z lm)
  && in_unit_interval (NormalizedLandmark.visibility lm).

Definition keypoint_in_range (r : pyval) : bool :=
  match record_float "x" r, record_float "y" r,
        record_float "z" r, record_float "visibility" r with
  | Some fx, Some fy, Some fz, Some fv =>
      in_unit_interval fx && in_unit_interval fy
      && is_finite fz && in_unit_interval fv
  | _, _, _, _ => false
  end.

(** The pixel grids handed to [pose.process], oldest first. *)
Fixpoint frames_processed (w : world) : list ndarray :=
  match w with
  | [] => []
  | PoseProcess image :: rest => image :: frames_processed rest
  | _ :: rest => frames_processed rest
  end.

Section Observations.

Context {ext : External}.

(** Line 10 as a whole: the bytes decode to [image]. *)
Definition decodes (image_data : bytes) (image : RGBImage) : Prop :=
  exists opened,
    Image_open image_data = inr opened /\ Image_convert_RGB opened = inr image.

(** Line 10 as a whole: the decoding library raises [e]. *)
Definition decode_fails (image_data : bytes) (e : exception) : Prop :=
  Image_open image_data = inl e
  \/ exists opened,
       Image_open image_data = inr opened /\ Image_convert_RGB opened = inl e.

(** The answer of the inference pass that [analyze_pose], started in
    world [w], runs on [image]. *)
Definition inference (w : world) (image : RGBImage) : exception + SolutionOutputs :=
  Pose_infer (w ++ [PoseEnter true]) true (cvtColor (np_array image) COLOR_RGB2BGR).

(** The model answers by the pixel grid alone, whatever was called
    before. *)
Definition deterministic_model : Prop :=
  forall (w w' : world) (mode : bool) (image : ndarray),
    Pose_infer w mode image = Pose_infer w' mode image.

End Observations.

(** ** Sample environments

    A decoder for the smallest binary PPM files (one pixel, maxval 255),
    and a few models, to run the adapter on concrete uploads. *)

Definition ppm_header : bytes := list_byte_of_string "P6 1 1 255 ".

Fixpoint strip_prefix (prefix data : bytes) : option bytes :=
  match prefix, data with
  | [], rest => Some rest
  | p :: prefix', b :: data' =>
      if Byte.eqb p b then strip_prefix prefix' data' else None
  | _ :: _, [] => None
  end.

Definition ppm_open (data : bytes) : exception + bytes :=
  match strip_prefix ppm_header data with
  | Some raster => inr raster
  | None => inl (mkException "UnidentifiedImageError" "cannot identify image file")
  end.

Definition channel_value (b : byte) : Z := Z.of_N (Byte.to_N b).

Definition ppm_convert_RGB (raster : bytes) : exception + RGBImage :=
  match raster with
  | r :: g :: b :: _ =>
      inr [[mkColour (channel_value r) (channel_value g) (channel_value b)]]
  | _ => inl (mkException "OSError" "image file is truncated")
  end.

Definition ppm_env (infer : world -> bool -> ndarray -> exception + SolutionOutputs)
  : External :=
  mkExternal ppm_open ppm_convert_RGB infer.

(** A one-pixel pure red image, 14 bytes. *)
Definition red_pixel_ppm : bytes := ppm_header ++ [xff; x00; x00].

Definition red_image : RGBImage := [[mkColour 255 0 0]].

Definition centre : NormalizedLandmark.t :=
  NormalizedLandmark.mk 0.5%float 0.5%float (-0.25)%float 0.875%float.

Definition nose : NormalizedLandmark.t :=
  NormalizedLandmark.mk 0.5%float 0.125%float (-0.5)%float 1%float.

(** A wrist that left the frame on the right: MediaPipe does not clamp. *)
Definition wrist_out_of_frame : NormalizedLandmark.t :=
  NormalizedLandmark.mk 1.5%float 0.5%float (-0.25)%float 0.25%float.

Definition detect (lms : list NormalizedLandmark.t) : SolutionOutputs :=
  mkOutputs (Some (mkLandmarkList lms)).

Definition model_nobody (_ : world) (_ : bool) (_ : ndarray)
  : exception + SolutionOutputs :=
  inr (mkOutputs None).

Definition model_full_body (_ : world) (_ : bool) (_ : ndarray)
  : exception + SolutionOutputs :=
  inr (detect (nose :: repeat centre 32)).

Definition model_empty_list (_ : world) (_ : bool) (_ : ndarray)
  : exception + SolutionOutputs :=
  inr (detect []).

Definition model_leaning_out (_ : world) (_ : bool) (_ : ndarray)
  : exception + SolutionOutputs :=
  inr (detect [nose; wrist_out_of_frame]).

(** A model that keeps the contract of section 6 on a one-pixel scene: it
    finds its subject when channel 0, where it expects red, is bright. *)
Definition model_red_subject (_ : world) (_ : bool) (image : ndarray)
  : exception + SolutionOutputs :=
  match image with
  | ((c0, _, _) :: _) :: _ =>
      if 128 <=? c0 then inr (detect [nose]) else inr (mkOutputs None)
  | _ => inr (mkOutputs None)
  end.

(** A model whose answer depends on how many calls came before. *)
Definition model_drifting (w : world) (_ : bool) (_ : ndarray)
  : exception + SolutionOutputs :=
  if Nat.even (List.length w) then inr (detect [nose]) else inr (mkOutputs None).

Definition nobody_env : External := ppm_env model_nobody.
Definition drifting_env : External := ppm_env model_drifting.
Definition full_body_env : External := ppm_env model_full_body.
Definition empty_list_env : External := ppm_env model_empty_list.
Definition leaning_out_env : External := ppm_env model_leaning_out.
Definition red_subject_env : External := ppm_env model_red_subject.

Definition upload_of (data : bytes) : UploadFile :=
  mkUploadFile "upload.ppm" "image/x-portable-pixmap" data.

(** A model whose inference pass raises. *)
Definition model_crashing (_ : world) (_ : bool) (_ : ndarray)
  : exception + SolutionOutputs :=
  inl (mkException "RuntimeError" "inference graph failed").

Definition model_head_and_hip (_ : world) (_ : bool) (_ : ndarray)
  : exception + SolutionOutputs :=
  inr (detect [centre; nose]).

Definition crashing_env : External := ppm_env model_crashing.
Definition head_and_hip_env : External := ppm_env model_head_and_hip.

(** ** Session discipline

    Where a pose session stands while the log is read: every session the
    adapter opens is entered in static-image mode, runs one pass and is
    left again. *)

Inductive session_state : Type := Idle | Entered | Processed.

Definition session_step (s : session_state) (ev : event) : option session_state :=
  match s, ev with
  | Idle, PoseEnter true => Some Entered
  | Entered, PoseProcess _ => Some Processed
  | Processed, PoseExit => Some Idle
  | _, _ => None
  end.

Fixpoint session_scan (s : session_state) (w : world) : option session_state :=
  match w with
  | [] => Some s
  | ev :: rest =>
      match session_step s ev with
      | Some s' => session_scan s' rest
      | None => None
      end
  end.

(** The log is a sequence of complete one-pass sessions. *)
Definition one_shot_sessions (w : world) : bool :=
  match session_scan Idle w with
  | Some Idle => true
  | _ => false
  end.

(** The cell in row [i], column [j] of a grid. *)
Definition cell_at {A : Type} (grid : list (list A)) (i j : nat) : option A :=
  match nth_error grid i with
  | Some row => nth_error row j
  | None => None
  end.

(** * Facts about the adapter *)

(** ** Lists and enumeration *)

Lemma enumerate_from_length (A : Type) (l : list A) (start : Z) :
  List.length (enumerate_from start l) = List.length l.
Proof.
  revert start. induction l as [|a l IH]; intros start; simpl.
  - reflexivity.
  - now rewrite IH.
Qed.

Lemma enumerate_from_nth (A : Type) (l : list A) (start : Z) (k : nat) :
  nth_error (enumerate_from start l) k
  = option_map (fun a => (start + Z.of_nat k, a)) (nth_error l k).
Proof.
  revert start k. induction l as [|a l IH]; intros start k.
  - destruct k; reflexivity.
  - destruct k as [|k]; simpl.
    + now rewrite Z.add_0_r.
    + rewrite IH. destruct (nth_error l k); simpl; [|reflexivity].
      do 2 f_equal. lia.
Qed.

Lemma enumerate_from_fst (A : Type) (l : list A) (start : Z) :
  map fst (enumerate_from start l)
  = map (fun k => start + Z.of_nat k) (seq 0 (List.length l)).
Proof.
  revert start. induction l as [|a l IH]; intros start; simpl.
  - reflexivity.
  - rewrite Z.add_0_r. f_equal.
    rewrite IH, <- seq_shift, map_map.
    apply map_ext. intros k. lia.
Qed.

Lemma append_loop_is_map (A B : Type) (step : list B -> A -> list B)
      (f : A -> B) (l : list A) (acc : list B) :
  (forall out a, step out a = out ++ [f a]) ->
  fold_left step l acc = acc ++ map f l.
Proof.
  intros Hstep. revert acc. induction l as [|a l IH]; intros acc; simpl.
  - now rewrite app_nil_r.
  - rewrite IH, Hstep, <- app_assoc. reflexivity.
Qed.

Lemma collect_keypoints_map (landmarks : list NormalizedLandmark.t) :
  collect_keypoints landmarks
  = map (fun p => keypoint_record (fst p) (snd p)) (enumerate landmarks).
Proof.
  unfold collect_keypoints.
  rewrite append_loop_is_map with (f := fun p => keypoint_record (fst p) (snd p)).
  - reflexivity.
  - intros out [id lm]. reflexivity.
Qed.

Lemma collect_keypoints_length (landmarks : list NormalizedLandmark.t) :
  List.length (collect_keypoints landmarks) = List.length landmarks.
Proof.
  rewrite collect_keypoints_map, length_map. apply enumerate_from_length.
Qed.

Lemma collect_keypoints_nth (landmarks : list NormalizedLandmark.t) (k : nat) :
  nth_error (collect_keypoints landmarks) k
  = option_map (keypoint_record (Z.of_nat k)) (nth_error landmarks k).
Proof.
  rewrite collect_keypoints_map, nth_error_map.
  unfold enumerate. rewrite enumerate_from_nth.
  destruct (nth_error landmarks k); reflexivity.
Qed.

Lemma collect_keypoints_ids (landmarks : list NormalizedLandmark.t) :
  map record_id (collect_keypoints landmarks)
  = map (fun k => Some (Z.of_nat k)) (seq 0 (List.length landmarks)).
Proof.
  rewrite collect_keypoints_map, map_map.
  rewrite <- (map_map (fun k => 0 + Z.of_nat k) (@Some Z)).
  unfold enumerate. rewrite <- enumerate_from_fst, map_map.
  apply map_ext. intros [id lm]. reflexivity.
Qed.

Lemma collect_keypoints_shape (landmarks : list NormalizedLandmark.t) :
  forallb keypoint_shape (collect_keypoints landmarks) = true.
Proof.
  rewrite collect_keypoints_map, forallb_forall.
  intros r Hr. apply in_map_iff in Hr. destruct Hr as [[id lm] [<- _]].
  reflexivity.
Qed.

(** ** The channel swap *)

Lemma np_array_is_rgb (image : RGBImage) : np_array image = grid_in RGB image.
Proof. reflexivity. Qed.

Lemma cvtColor_np_array (image : RGBImage) :
  cvtColor (np_array image) COLOR_RGB2BGR = grid_in BGR image.
Proof.
  unfold cvtColor, np_array, grid_in. rewrite map_map.
  apply map_ext. intros row. rewrite map_map. reflexivity.
Qed.

(** ** Runs of the adapter *)

Section Runs.

Context {ext : External}.

Lemma analyze_pose_open_fails (image_data : bytes) (e : exception) (w : world) :
  Image_open image_data = inl e ->
  analyze_pose image_data w = (Raise e, w).
Proof.
  intros Hopen. unfold analyze_pose, bind, lift. rewrite Hopen. reflexivity.
Qed.

Lemma analyze_pose_convert_fails (image_data : bytes) (opened : PILImage)
      (e : exception) (w : world) :
  Image_open image_data = inr opened ->
  Image_convert_RGB opened = inl e ->
  analyze_pose image_data w = (Raise e, w).
Proof.
  intros Hopen Hconv. unfold analyze_pose, bind, lift.
  rewrite Hopen, Hconv. reflexivity.
Qed.

Lemma analyze_pose_decode_fails (image_data : bytes) (e : exception) (w : world) :
  decode_fails image_data e ->
  analyze_pose image_data w = (Raise e, w).
Proof.
  intros [Hopen | [opened [Hopen Hconv]]].
  - now apply analyze_pose_open_fails.
  - now apply analyze_pose_convert_fails with opened.
Qed.

(** Once the bytes decode, the run is one session in static-image mode
    with one inference pass, and the result is read off its answer. *)
Lemma analyze_pose_decoded (image_data : bytes) (image : RGBImage) (w : world) :
  decodes image_data image ->
  analyze_pose image_data w
  = (match inference w image with
     | inl e => Raise e
     | inr results =>
         match pose_landmarks results with
         | None => Return no_pose_detected
         | Some lms => Return (pose_found (collect_keypoints (landmark lms)))
         end
     end,
     w ++ [PoseEnter true;
           PoseProcess (cvtColor (np_array image) COLOR_RGB2BGR);
           PoseExit]).
Proof.
  intros [opened [Hopen Hconv]].
  unfold analyze_pose, bind, lift, with_Pose, Pose_process, inference, ret.
  rewrite Hopen, Hconv. simpl.
  destruct (Pose_infer _ true _) as [e | results]; simpl.
  - now rewrite <- !app_assoc.
  - destruct (pose_landmarks results) as [lms|]; simpl; now rewrite <- !app_assoc.
Qed.

Lemma decodes_functional (image_data : bytes) (image image' : RGBImage) :
  decodes image_data image -> decodes image_data image' -> image = image'.
Proof.
  intros [o [Ho Hc]] [o' [Ho' Hc']]. congruence.
Qed.

Lemma decode_total (image_data : bytes) :
  (exists image, decodes image_data image) \/ (exists e, decode_fails image_data e).
Proof.
  unfold decodes, decode_fails.
  destruct (Image_open image_data) as [e | opened] eqn:Hopen.
  - right. exists e. now left.
  - destruct (Image_convert_RGB opened) as [e | image] eqn:Hconv.
    + right. exists e. right. now exists opened.
    + left. exists image. now exists opened.
Qed.

End Runs.

(** ** The two result variants *)

Section Variants.

Context {ext : External}.

(** Every run ends in one of three ways, told apart by the decoder and
    by the answer of the inference pass. *)
Lemma analyze_pose_cases (image_data : bytes) (w : world) :
  (exists e, decode_fails image_data e /\ analyze_pose image_data w = (Raise e, w))
  \/ (exists image,
        decodes image_data image
        /\ analyze_pose image_data w
           = (match inference w image with
              | inl e => Raise e
              | inr results =>
                  match pose_landmarks results with
                  | None => Return no_pose_detected
                  | Some lms => Return (pose_found (collect_keypoints (landmark lms)))
                  end
              end,
              w ++ [PoseEnter true;
                    PoseProcess (cvtColor (np_array image) COLOR_RGB2BGR);
                    PoseExit])).
Proof.
  destruct (decode_total image_data) as [[image Hdec] | [e Hfail]].
  - right. exists image. split; [assumption|]. now apply analyze_pose_decoded.
  - left. exists e. split; [assumption|]. now apply analyze_pose_decode_fails.
Qed.

(** A returned value comes from a decoded image and an answer of the
    model, and is built from that answer alone. *)
Lemma analyze_pose_returns_inv (image_data : bytes) (w w' : world) (v : pyval) :
  analyze_pose image_data w = (Return v, w') ->
  exists image results,
    decodes image_data image
    /\ inference w image = inr results
    /\ v = match pose_landmarks results with
           | None => no_pose_detected
           | Some lms => pose_found (collect_keypoints (landmark lms))
           end.
Proof.
  intros Hrun.
  destruct (analyze_pose_cases image_data w) as [[e [_ Hr]] | [image [Hdec Hr]]];
    rewrite Hr in Hrun.
  - discriminate.
  - destruct (inference w image) as [e | results] eqn:Hinf; [discriminate|].
    exists image, results. split; [assumption|]. split; [assumption|].
    destruct (pose_landmarks results); congruence.
Qed.

Lemma success_result_inv (image_data : bytes) (w w' : world) (v : pyval) :
  analyze_pose image_data w = (Return v, w') ->
  success_tag v = Some true ->
  exists image results lms,
    decodes image_data image
    /\ inference w image = inr results
    /\ pose_landmarks results = Some lms
    /\ v = pose_found (collect_keypoints (landmark lms)).
Proof.
  intros Hrun Htag.
  destruct (analyze_pose_returns_inv _ _ Hrun) as [image [results [Hdec [Hinf Hv]]]].
  destruct (pose_landmarks results) as [lms|] eqn:Hlm.
  - now exists image, results, lms.
  - subst v. discriminate.
Qed.

Lemma pose_found_success_shape (landmarks : list NormalizedLandmark.t) :
  success_shape (pose_found (collect_keypoints landmarks)) = true.
Proof.
  unfold success_shape. simpl. apply collect_keypoints_shape.
Qed.

End Variants.

(** C2: when the inference pass on the submitted image reports no body
    landmarks, analyze_pose returns, without raising, exactly the dict
    with "success" false and the message "No pose detected", and no other
    field. *)
Theorem C2_no_pose_detected {ext : External}
        (image_data : bytes) (image : RGBImage) (w : world)
        (results : SolutionOutputs) :
  decodes image_data image ->
  inference w image = inr results ->
  pose_landmarks results = None ->
  exists w',
    analyze_pose image_data w
    = (Return (PyDict [("success", PyBool false);
                       ("message", PyStr "No pose detected")]), w').
Proof.
  intros Hdec Hinf Hnone.
  rewrite (analyze_pose_decoded w Hdec), Hinf, Hnone.
  eexists. reflexivity.
Qed.

Lemma C2_no_pose_detected_witness :
  exists w',
    @analyze_pose nobody_env red_pixel_ppm []
    = (Return (PyDict [("success", PyBool false);
                       ("message", PyStr "No pose detected")]), w').
Proof.
  apply (@C2_no_pose_detected nobody_env red_pixel_ppm red_image []
                              (mkOutputs None)).
  - exists [xff; x00; x00]. split; reflexivity.
  - reflexivity.
  - reflexivity.
Defined.

(** C10: when the model answers with a landmark collection that is
    present but holds no landmark, analyze_pose returns the success
    variant with an empty keypoints list, not the failure variant. *)
Theorem C10_empty_collection_is_success {ext : External}
        (image_data : bytes) (image : RGBImage) (w : world)
        (results : SolutionOutputs) (lms : NormalizedLandmarkList) :
  decodes image_data image ->
  inference w image = inr results ->
  pose_landmarks results = Some lms ->
  landmark lms = [] ->
  fst (analyze_pose image_data w)
  = Return (PyDict [("success", PyBool true); ("keypoints", PyList [])])
  /\ fst (analyze_pose image_data w) <> Return no_pose_detected.
Proof.
  intros Hdec Hinf Hsome Hempty.
  rewrite (analyze_pose_decoded w Hdec), Hinf, Hsome, Hempty. simpl.
  split; [reflexivity | discriminate].
Qed.

Lemma C10_empty_collection_is_success_witness :
  fst (@analyze_pose empty_list_env red_pixel_ppm [])
  = Return (PyDict [("success", PyBool true); ("keypoints", PyList [])])
  /\ fst (@analyze_pose empty_list_env red_pixel_ppm []) <> Return no_pose_detected.
Proof.
  apply (@C10_empty_collection_is_success empty_list_env red_pixel_ppm red_image []
           (detect []) (mkLandmarkList [])).
  - exists [xff; x00; x00]. split; reflexivity.
  - reflexivity.
  - reflexivity.
  - reflexivity.
Defined.

(** C9: a value that analyze_pose returns has exactly one of two shapes:
    the success dict, with the keys "success" (true) and "keypoints" (a
    list of records with exactly the keys id, x, y, z, visibility) and no
    "message"; or the failure dict with "success" false and the message
    "No pose detected", and no "keypoints". *)
Theorem C9_two_shapes {ext : External}
        (image_data : bytes) (w w' : world) (v : pyval) :
  analyze_pose image_data w = (Return v, w') ->
  (success_shape v = true /\ failure_shape v = false
   /\ dict_get "message" v = None)
  \/ (failure_shape v = true /\ success_shape v = false
      /\ v = PyDict [("success", PyBool false);
                     ("message", PyStr "No pose detected")]
      /\ dict_get "keypoints" v = None).
Proof.
  intros Hrun.
  destruct (analyze_pose_returns_inv _ _ Hrun) as [image [results [_ [_ Hv]]]].
  destruct (pose_landmarks results) as [lms|]; subst v.
  - left. split; [apply pose_found_success_shape | split; reflexivity].
  - right. repeat split; reflexivity.
Qed.

Lemma C9_two_shapes_witness :
  let v := pose_found (collect_keypoints (nose :: repeat centre 32)) in
  (success_shape v = true /\ failure_shape v = false
   /\ dict_get "message" v = None)
  \/ (failure_shape v = true /\ success_shape v = false
      /\ v = PyDict [("success", PyBool false);
                     ("message", PyStr "No pose detected")]
      /\ dict_get "keypoints" v = None).
Proof.
  apply (@C9_two_shapes full_body_env red_pixel_ppm []
           [PoseEnter true; PoseProcess [[(0, 0, 255)]]; PoseExit]).
  reflexivity.
Defined.

(** ** Keypoint records *)

(** C3: in every success result the "id" of the k-th keypoint record is
    k, so the ids are pairwise distinct, and the k-th record is the one
    built from the model's k-th landmark; when the model reports 33
    landmarks the ids are exactly 0..32. *)
Theorem C3_ids_are_positions {ext : External}
        (image_data : bytes) (w w' : world) (v : pyval) :
  analyze_pose image_data w = (Return v, w') ->
  success_tag v = Some true ->
  exists image results lms kps,
    decodes image_data image
    /\ inference w image = inr results
    /\ pose_landmarks results = Some lms
    /\ keypoints_of v = Some kps
    /\ List.length kps = List.length (landmark lms)
    /\ (forall k r, nth_error kps k = Some r -> record_id r = Some (Z.of_nat k))
    /\ NoDup (map record_id kps)
    /\ (forall k lm, nth_error (landmark lms) k = Some lm ->
                     nth_error kps k = Some (keypoint_record (Z.of_nat k) lm))
    /\ (List.length (landmark lms) = 33%nat ->
        map record_id kps = map (fun k => Some (Z.of_nat k)) (seq 0 33)).
Proof.
  intros Hrun Htag.
  destruct (success_result_inv _ _ Hrun Htag)
    as [image [results [lms [Hdec [Hinf [Hlm Hv]]]]]].
  exists image, results, lms, (collect_keypoints (landmark lms)).
  subst v. repeat (split; [first [assumption | reflexivity]|]).
  split; [apply collect_keypoints_length|].
  split.
  { intros k r Hk. rewrite collect_keypoints_nth in Hk.
    destruct (nth_error (landmark lms) k); simpl in Hk; [|discriminate].
    injection Hk as <-. reflexivity. }
  split.
  { rewrite collect_keypoints_ids.
    apply Injective_map_NoDup; [|apply seq_NoDup].
    intros a b Hab. injection Hab as Hab. now apply Nat2Z.inj. }
  split.
  { intros k lm Hk. now rewrite collect_keypoints_nth, Hk. }
  intros Hlen. now rewrite collect_keypoints_ids, Hlen.
Qed.

Lemma C3_ids_are_positions_witness :
  exists image results lms kps,
    @decodes full_body_env red_pixel_ppm image
    /\ @inference full_body_env [] image = inr results
    /\ pose_landmarks results = Some lms
    /\ keypoints_of (pose_found (collect_keypoints (nose :: repeat centre 32)))
       = Some kps
    /\ List.length kps = List.length (landmark lms)
    /\ (forall k r, nth_error kps k = Some r -> record_id r = Some (Z.of_nat k))
    /\ NoDup (map record_id kps)
    /\ (forall k lm, nth_error (landmark lms) k = Some lm ->
                     nth_error kps k = Some (keypoint_record (Z.of_nat k) lm))
    /\ (List.length (landmark lms) = 33%nat ->
        map record_id kps = map (fun k => Some (Z.of_nat k)) (seq 0 33)).
Proof.
  apply (@C3_ids_are_positions full_body_env red_pixel_ppm []
           [PoseEnter true; PoseProcess [[(0, 0, 255)]]; PoseExit]).
  - reflexivity.
  - reflexivity.
Defined.

(** C5: for every landmark the model returns, the x, y, z and visibility
    of the keypoint record at the same position of a success result are
    the model's own values, and there are no other records. *)
Theorem C5_values_pass_through {ext : External}
        (image_data : bytes) (w w' : world) (v : pyval) :
  analyze_pose image_data w = (Return v, w') ->
  success_tag v = Some true ->
  exists image results lms kps,
    decodes image_data image
    /\ inference w image = inr results
    /\ pose_landmarks results = Some lms
    /\ keypoints_of v = Some kps
    /\ List.length kps = List.length (landmark lms)
    /\ forall k lm, nth_error (landmark lms) k = Some lm ->
         exists r,
           nth_error kps k = Some r
           /\ record_float "x" r = Some (NormalizedLandmark.x lm)
           /\ record_float "y" r = Some (NormalizedLandmark.y lm)
           /\ record_float "z" r = Some (NormalizedLandmark.z lm)
           /\ record_float "visibility" r = Some (NormalizedLandmark.visibility lm).
Proof.
  intros Hrun Htag.
  destruct (success_result_inv _ _ Hrun Htag)
    as [image [results [lms [Hdec [Hinf [Hlm Hv]]]]]].
  exists image, results, lms, (collect_keypoints (landmark lms)).
  subst v. repeat (split; [first [assumption | reflexivity]|]).
  split; [apply collect_keypoints_length|].
  intros k lm Hk. exists (keypoint_record (Z.of_nat k) lm).
  rewrite collect_keypoints_nth, Hk. repeat split.
Qed.

Lemma C5_values_pass_through_witness :
  exists image results lms kps,
    @decodes leaning_out_env red_pixel_ppm image
    /\ @inference leaning_out_env [] image = inr results
    /\ pose_landmarks results = Some lms
    /\ keypoints_of (pose_found (collect_keypoints [nose; wrist_out_of_frame]))
       = Some kps
    /\ List.length kps = List.length (landmark lms)
    /\ forall k lm, nth_error (landmark lms) k = Some lm ->
         exists r,
           nth_error kps k = Some r
           /\ record_float "x" r = Some (NormalizedLandmark.x lm)
           /\ record_float "y" r = Some (NormalizedLandmark.y lm)
           /\ record_float "z" r = Some (NormalizedLandmark.z lm)
           /\ record_float "visibility" r = Some (NormalizedLandmark.visibility lm).
Proof.
  apply (@C5_values_pass_through leaning_out_env red_pixel_ppm []
           [PoseEnter true; PoseProcess [[(0, 0, 255)]]; PoseExit]).
  - reflexivity.
  - reflexivity.
Defined.

Lemma keypoint_record_in_range (id : Z) (lm : NormalizedLandmark.t) :
  keypoint_in_range (keypoint_record id lm) = landmark_in_range lm.
Proof. reflexivity. Qed.

Lemma collect_keypoints_in_range (landmarks : list NormalizedLandmark.t) :
  forallb keypoint_in_range (collect_keypoints landmarks)
  = forallb landmark_in_range landmarks.
Proof.
  rewrite collect_keypoints_map. unfold enumerate. generalize 0.
  induction landmarks as [|lm rest IH]; intros start; simpl.
  - reflexivity.
  - rewrite keypoint_record_in_range, IH. reflexivity.
Qed.

(** C7, as the code has it: the adapter neither clamps nor checks, so the
    ranges are those of the model.  In a success result, if every
    landmark the model returned has x, y and visibility in [0,1] and a
    finite z, so has every keypoint record. *)
Theorem C7_ranges_are_the_models {ext : External}
        (image_data : bytes) (w w' : world) (v : pyval)
        (image : RGBImage) (results : SolutionOutputs)
        (lms : NormalizedLandmarkList) :
  analyze_pose image_data w = (Return v, w') ->
  success_tag v = Some true ->
  decodes image_data image ->
  inference w image = inr results ->
  pose_landmarks results = Some lms ->
  forallb landmark_in_range (landmark lms) = true ->
  exists kps,
    keypoints_of v = Some kps /\ forallb keypoint_in_range kps = true.
Proof.
  intros Hrun _ Hdec Hinf Hlm Hrange.
  rewrite (analyze_pose_decoded w Hdec), Hinf, Hlm in Hrun.
  injection Hrun as <- _.
  exists (collect_keypoints (landmark lms)). split; [reflexivity|].
  now rewrite collect_keypoints_in_range.
Qed.

Lemma C7_ranges_are_the_models_witness :
  exists kps,
    keypoints_of (pose_found (collect_keypoints (nose :: repeat centre 32)))
    = Some kps
    /\ forallb keypoint_in_range kps = true.
Proof.
  apply (@C7_ranges_are_the_models full_body_env red_pixel_ppm []
           [PoseEnter true; PoseProcess [[(0, 0, 255)]]; PoseExit]
           (pose_found (collect_keypoints (nose :: repeat centre 32)))
           red_image (detect (nose :: repeat centre 32))
           (mkLandmarkList (nose :: repeat centre 32))).
  - reflexivity.
  - reflexivity.
  - exists [xff; x00; x00]. split; reflexivity.
  - reflexivity.
  - reflexivity.
  - vm_compute. reflexivity.
Defined.

(** C7 as stated fails: with a model that places a wrist to the right of
    the frame, the upload of a one-pixel image gets a success result
    whose second keypoint has x = 1.5. *)
Lemma C7_counterexample :
  exists v w' kps r,
    @analyze_pose leaning_out_env red_pixel_ppm [] = (Return v, w')
    /\ success_tag v = Some true
    /\ keypoints_of v = Some kps
    /\ nth_error kps 1 = Some r
    /\ record_float "x" r = Some 1.5%float
    /\ in_unit_interval 1.5%float = false
    /\ forallb keypoint_in_range kps = false.
Proof.
  exists (pose_found (collect_keypoints [nose; wrist_out_of_frame])),
         [PoseEnter true; PoseProcess [[(0, 0, 255)]]; PoseExit],
         (collect_keypoints [nose; wrist_out_of_frame]),
         (keypoint_record 1 wrist_out_of_frame).
  repeat split; vm_compute; reflexivity.
Qed.

(** ** Determinism *)

(** C8: with a model that answers by the pixel grid alone, whenever a
    call of analyze_pose on some bytes returns a result, a second call on
    the same bytes, made in any later state of the process, returns a
    result with the same success tag, the same number of keypoints and
    the same sequence of ids. *)
Theorem C8_same_bytes_same_ids {ext : External}
        (image_data : bytes) (w w1 w0 : world) (v1 : pyval) :
  deterministic_model ->
  analyze_pose image_data w = (Return v1, w1) ->
  exists v2 w2,
    analyze_pose image_data w0 = (Return v2, w2)
    /\ success_tag v2 = success_tag v1
    /\ keypoint_count v2 = keypoint_count v1
    /\ keypoint_ids v2 = keypoint_ids v1.
Proof.
  intros Hdet Hrun.
  destruct (analyze_pose_returns_inv _ _ Hrun) as [image [results [Hdec [Hinf Hv]]]].
  assert (Hinf0 : inference w0 image = inr results).
  { unfold inference in *. now rewrite (Hdet _ (w ++ [PoseEnter true])). }
  exists v1. eexists. split; [|repeat split].
  rewrite (analyze_pose_decoded w0 Hdec), Hinf0.
  destruct (pose_landmarks results); subst v1; reflexivity.
Qed.

Lemma C8_same_bytes_same_ids_witness :
  let v1 := pose_found (collect_keypoints (nose :: repeat centre 32)) in
  exists v2 w2,
    @analyze_pose full_body_env red_pixel_ppm
       [PoseEnter true; PoseProcess [[(0, 0, 255)]]; PoseExit] = (Return v2, w2)
    /\ success_tag v2 = success_tag v1
    /\ keypoint_count v2 = keypoint_count v1
    /\ keypoint_ids v2 = keypoint_ids v1.
Proof.
  apply (@C8_same_bytes_same_ids full_body_env red_pixel_ppm []
           [PoseEnter true; PoseProcess [[(0, 0, 255)]]; PoseExit]).
  - intros w w' mode image. reflexivity.
  - reflexivity.
Defined.

(** The assumption on the model is needed: a model that drifts from call
    to call gives two different answers for the same bytes. *)
Remark drifting_model_breaks_determinism :
  @analyze_pose drifting_env red_pixel_ppm []
  = (Return no_pose_detected,
     [PoseEnter true; PoseProcess [[(0, 0, 255)]]; PoseExit])
  /\ fst (@analyze_pose drifting_env red_pixel_ppm
            [PoseEnter true; PoseProcess [[(0, 0, 255)]]; PoseExit])
     = Return (pose_found [keypoint_record 0 nose]).
Proof. split; reflexivity. Qed.

(** ** The route *)

Section Route.

Context {ext : External}.

(** The route adds nothing to the adapter: same outcome, same log. *)
Lemma analyze_image_is_analyze_pose (upload : UploadFile) (w : world) :
  analyze_image upload w = analyze_pose (file upload) w.
Proof.
  unfold analyze_image, UploadFile_read, bind, ret.
  destruct (analyze_pose (file upload) w) as [[v | e] w']; reflexivity.
Qed.

End Route.

(** C4: when the decoding library cannot decode the uploaded bytes,
    analyze_pose raises the decoder's error and returns nothing, the
    route lets the error through, and the request ends in a server error
    whose body is not a JSON result. *)
Theorem C4_decode_error_propagates {ext : External}
        (upload : UploadFile) (e : exception) (w : world) :
  decode_fails (file upload) e ->
  analyze_pose (file upload) w = (Raise e, w)
  /\ analyze_image upload w = (Raise e, w)
  /\ status_code (fst (post_analyze_image upload w)) = 500
  /\ forall v, body (fst (post_analyze_image upload w)) <> JSONBody v.
Proof.
  intros Hfail.
  pose proof (analyze_pose_decode_fails w Hfail) as Hpose.
  assert (Himage : analyze_image upload w = (Raise e, w))
    by now rewrite analyze_image_is_analyze_pose.
  unfold post_analyze_image. rewrite Himage. simpl.
  repeat split; try assumption. discriminate.
Qed.

Lemma C4_decode_error_propagates_witness :
  let e := mkException "UnidentifiedImageError" "cannot identify image file" in
  @analyze_pose full_body_env [] [] = (Raise e, [])
  /\ @analyze_image full_body_env (upload_of []) [] = (Raise e, [])
  /\ status_code (fst (@post_analyze_image full_body_env (upload_of []) [])) = 500
  /\ forall v,
       body (fst (@post_analyze_image full_body_env (upload_of []) [])) <> JSONBody v.
Proof.
  apply (@C4_decode_error_propagates full_body_env (upload_of [])).
  left. reflexivity.
Defined.

(** C6: the route reads the whole upload, hands exactly those bytes to
    analyze_pose, and whatever structure analyze_pose returns, the
    success variant or the failure variant alike, is the body of a
    response with status 200. *)
Theorem C6_route_forwards {ext : External}
        (upload : UploadFile) (w w' : world) (v : pyval) :
  analyze_pose (file upload) w = (Return v, w') ->
  UploadFile_read upload w = (Return (file upload), w)
  /\ analyze_image upload w = (Return v, w')
  /\ post_analyze_image upload w = (mkResponse 200 (JSONBody v), w').
Proof.
  intros Hrun.
  assert (Himage : analyze_image upload w = (Return v, w'))
    by now rewrite analyze_image_is_analyze_pose.
  unfold post_analyze_image. rewrite Himage. repeat split.
Qed.

Lemma C6_route_forwards_witness :
  let w' := [PoseEnter true; PoseProcess [[(0, 0, 255)]]; PoseExit] in
  @UploadFile_read (upload_of red_pixel_ppm) [] = (Return red_pixel_ppm, [])
  /\ @analyze_image nobody_env (upload_of red_pixel_ppm) []
     = (Return no_pose_detected, w')
  /\ @post_analyze_image nobody_env (upload_of red_pixel_ppm) []
     = (mkResponse 200 (JSONBody no_pose_detected), w').
Proof.
  apply (@C6_route_forwards nobody_env (upload_of red_pixel_ppm)).
  reflexivity.
Defined.

(** ** What the model is handed *)

Lemma frames_processed_app (w w' : world) :
  frames_processed (w ++ w') = frames_processed w ++ frames_processed w'.
Proof.
  induction w as [|ev w IH]; simpl.
  - reflexivity.
  - destruct ev; simpl; now rewrite IH.
Qed.

(** For every decodable input the run opens one session in static-image
    mode and hands it one grid: the decoded image with blue in channel 0
    and red in channel 2. *)
Lemma analyze_pose_hands_bgr {ext : External}
      (image_data : bytes) (image : RGBImage) (w : world) :
  decodes image_data image ->
  snd (analyze_pose image_data w)
  = w ++ [PoseEnter true; PoseProcess (grid_in BGR image); PoseExit]
  /\ frames_processed (snd (analyze_pose image_data w))
     = frames_processed w ++ [grid_in BGR image].
Proof.
  intros Hdec. rewrite (analyze_pose_decoded w Hdec), cvtColor_np_array. simpl.
  split; [reflexivity|]. now rewrite frames_processed_app.
Qed.

(** That grid is in the model's order only for an image in which every
    pixel has equal red and blue. *)
Lemma bgr_is_model_order_iff (image : RGBImage) :
  grid_in BGR image = grid_in model_channel_order image
  <-> Forall (Forall (fun c => red c = blue c)) image.
Proof.
  unfold grid_in, model_channel_order. rewrite Forall_forall. split.
  - intros Heq row Hrow. rewrite Forall_forall. intros c Hc.
    pose proof (proj1 (@map_ext_in_iff _ _ _ _ _) Heq row Hrow) as Hr.
    pose proof (proj1 (@map_ext_in_iff _ _ _ _ _) Hr c Hc) as Hpix.
    simpl in Hpix. congruence.
  - intros Hall. apply map_ext_in. intros row Hrow.
    apply map_ext_in. intros c Hc.
    specialize (Hall row Hrow). rewrite Forall_forall in Hall.
    simpl. now rewrite (Hall c Hc).
Qed.

(** C1 fails on the code.  On the 14-byte PPM file of one pure red pixel
    the decoder gives the pixel in RGB order, the swap turns it into BGR,
    and that is what the session receives, while the model's contract
    asks for RGB: the grid handed over is (0,0,255) where (255,0,0) is
    expected.  A model that keeps the contract and finds its subject on
    the expected grid answers "No pose detected" here. *)
Theorem C1_model_is_handed_bgr :
  @decodes red_subject_env red_pixel_ppm red_image
  /\ snd (@analyze_pose red_subject_env red_pixel_ppm [])
     = [PoseEnter true; PoseProcess [[(0, 0, 255)]]; PoseExit]
  /\ grid_in model_channel_order red_image = [[(255, 0, 0)]]
  /\ frames_processed (snd (@analyze_pose red_subject_env red_pixel_ppm []))
     <> [grid_in model_channel_order red_image]
  /\ model_red_subject [PoseEnter true] true (grid_in model_channel_order red_image)
     = inr (detect [nose])
  /\ fst (@analyze_pose red_subject_env red_pixel_ppm []) = Return no_pose_detected.
Proof.
  split; [exists [xff; x00; x00]; split; reflexivity|].
  repeat split; try reflexivity.
  vm_compute. discriminate.
Qed.

(** * Further facts read off the code *)

(** ** Exceptions *)

(** X1: every exception analyze_pose raises was raised by the decoder or
    by the inference pass; the adapter adds none of its own (the guard
    before the loop keeps the attribute access on the landmark
    collection from ever failing).  The log tells the two apart: after a
    decoding error it is unchanged, after an inference error it holds one
    closed session. *)
Theorem X1_raise_provenance {ext : External}
        (image_data : bytes) (w w' : world) (e : exception) :
  analyze_pose image_data w = (Raise e, w') ->
  (decode_fails image_data e /\ w' = w)
  \/ (exists image,
        decodes image_data image
        /\ inference w image = inl e
        /\ w' = w ++ [PoseEnter true; PoseProcess (grid_in BGR image); PoseExit]).
Proof.
  intros Hrun.
  destruct (analyze_pose_cases image_data w) as [[e0 [Hfail Hr]] | [image [Hdec Hr]]];
    rewrite Hr in Hrun.
  - injection Hrun as -> ->. left. now split.
  - right. exists image. rewrite cvtColor_np_array in Hrun.
    destruct (inference w image) as [e0 | results].
    + injection Hrun as -> <-. repeat split; assumption.
    + destruct (pose_landmarks results); discriminate.
Qed.

Lemma X1_raise_provenance_witness :
  let e := mkException "RuntimeError" "inference graph failed" in
  let w' := [PoseEnter true; PoseProcess [[(0, 0, 255)]]; PoseExit] in
  (@decode_fails crashing_env red_pixel_ppm e /\ w' = [])
  \/ (exists image,
        @decodes crashing_env red_pixel_ppm image
        /\ @inference crashing_env [] image = inl e
        /\ w' = [] ++ [PoseEnter true; PoseProcess (grid_in BGR image); PoseExit]).
Proof.
  apply (@X1_raise_provenance crashing_env red_pixel_ppm []).
  reflexivity.
Defined.

(** X2: when the inference pass raises on a decoded upload, analyze_pose
    raises the same exception instead of returning a result, the session
    is still left (the log ends with the exit), and the route lets the
    exception through unchanged. *)
Theorem X2_inference_error_propagates {ext : External}
        (upload : UploadFile) (image : RGBImage) (w : world) (e : exception) :
  decodes (file upload) image ->
  inference w image = inl e ->
  analyze_pose (file upload) w
  = (Raise e, w ++ [PoseEnter true; PoseProcess (grid_in BGR image); PoseExit])
  /\ analyze_image upload w
     = (Raise e, w ++ [PoseEnter true; PoseProcess (grid_in BGR image); PoseExit]).
Proof.
  intros Hdec Hinf.
  assert (Hpose : analyze_pose (file upload) w
                  = (Raise e, w ++ [PoseEnter true;
                                    PoseProcess (grid_in BGR image); PoseExit])).
  { now rewrite (analyze_pose_decoded w Hdec), Hinf, cvtColor_np_array. }
  split; [assumption|]. now rewrite analyze_image_is_analyze_pose.
Qed.

Lemma X2_inference_error_propagates_witness :
  let e := mkException "RuntimeError" "inference graph failed" in
  @analyze_pose crashing_env (file (upload_of red_pixel_ppm)) []
  = (Raise e, [] ++ [PoseEnter true; PoseProcess (grid_in BGR red_image); PoseExit])
  /\ @analyze_image crashing_env (upload_of red_pixel_ppm) []
     = (Raise e, [] ++ [PoseEnter true; PoseProcess (grid_in BGR red_image); PoseExit]).
Proof.
  apply (@X2_inference_error_propagates crashing_env (upload_of red_pixel_ppm)
           red_image []).
  - exists [xff; x00; x00]. split; reflexivity.
  - reflexivity.
Defined.

(** ** Sessions *)

Lemma session_scan_app (w w' : world) (s : session_state) :
  session_scan s (w ++ w')
  = match session_scan s w with
    | Some s' => session_scan s' w'
    | None => None
    end.
Proof.
  revert s. induction w as [|ev w IH]; intros s; simpl.
  - reflexivity.
  - destruct (session_step s ev) as [s'|]; [apply IH | reflexivity].
Qed.

Lemma one_shot_sessions_scan (w : world) :
  one_shot_sessions w = true <-> session_scan Idle w = Some Idle.
Proof.
  unfold one_shot_sessions.
  destruct (session_scan Idle w) as [[| |]|]; split; intros H;
    first [reflexivity | discriminate].
Qed.

Lemma one_shot_sessions_extend (w : world) (image : ndarray) :
  one_shot_sessions w = true ->
  one_shot_sessions (w ++ [PoseEnter true; PoseProcess image; PoseExit]) = true.
Proof.
  rewrite !one_shot_sessions_scan. intros Hw.
  rewrite session_scan_app, Hw. reflexivity.
Qed.

(** X3: the adapter keeps the session discipline of the log.  If, before
    a call, the log consists of complete sessions, each entered in
    static-image mode, given exactly one grid and left again, then so
    does the log after analyze_pose, and after the route, whatever the
    bytes and however the call ends: no session is left open, none is
    nested in another, none runs a second pass. *)
Theorem X3_sessions_stay_one_shot {ext : External}
        (image_data : bytes) (upload : UploadFile) (w : world) :
  one_shot_sessions w = true ->
  one_shot_sessions (snd (analyze_pose image_data w)) = true
  /\ one_shot_sessions (snd (analyze_image upload w)) = true.
Proof.
  intros Hw.
  assert (Hpose : forall data, one_shot_sessions (snd (analyze_pose data w)) = true).
  { intros data.
    destruct (analyze_pose_cases data w) as [[e [_ Hr]] | [image [_ Hr]]];
      rewrite Hr; simpl.
    - assumption.
    - now apply one_shot_sessions_extend. }
  split; [apply Hpose|].
  rewrite analyze_image_is_analyze_pose. apply Hpose.
Qed.

Lemma X3_sessions_stay_one_shot_witness :
  one_shot_sessions
    (snd (@analyze_pose crashing_env red_pixel_ppm
            [PoseEnter true; PoseProcess [[(0, 0, 255)]]; PoseExit])) = true
  /\ one_shot_sessions
       (snd (@analyze_image crashing_env (upload_of [])
               [PoseEnter true; PoseProcess [[(0, 0, 255)]]; PoseExit])) = true.
Proof.
  apply (@X3_sessions_stay_one_shot crashing_env red_pixel_ppm (upload_of [])).
  reflexivity.
Defined.

(** ** The grid the model receives *)

Lemma cell_at_map (A B : Type) (f : A -> B) (grid : list (list A)) (i j : nat) :
  cell_at (map (map f) grid) i j = option_map f (cell_at grid i j).
Proof.
  unfold cell_at. rewrite nth_error_map.
  destruct (nth_error grid i) as [row|]; simpl; [|reflexivity].
  apply nth_error_map.
Qed.

(** X4: between decoding and inference the image is neither resized nor
    cropped nor are its values changed: the one grid handed to the model
    has the rows and the row lengths of the decoded image, and its cell
    in row i, column j holds the blue, green and red value, in that
    order, of the decoded pixel in row i, column j. *)
Theorem X4_model_grid_is_pixelwise {ext : External}
        (image_data : bytes) (image : RGBImage) (w : world) :
  decodes image_data image ->
  exists frame,
    frames_processed (snd (analyze_pose image_data w))
    = frames_processed w ++ [frame]
    /\ map (@List.length pixel) frame = map (@List.length colour) image
    /\ forall i j,
         cell_at frame i j
         = option_map (fun c => (blue c, green c, red c)) (cell_at image i j).
Proof.
  intros Hdec. exists (grid_in BGR image).
  split; [apply (analyze_pose_hands_bgr w Hdec)|].
  unfold grid_in. split.
  - rewrite map_map. apply map_ext. intros row. apply length_map.
  - intros i j. apply cell_at_map.
Qed.

Lemma X4_model_grid_is_pixelwise_witness :
  exists frame,
    frames_processed (snd (@analyze_pose full_body_env red_pixel_ppm []))
    = frames_processed [] ++ [frame]
    /\ map (@List.length pixel) frame = map (@List.length colour) red_image
    /\ forall i j,
         cell_at frame i j
         = option_map (fun c => (blue c, green c, red c)) (cell_at red_image i j).
Proof.
  apply (@X4_model_grid_is_pixelwise full_body_env red_pixel_ppm red_image []).
  exists [xff; x00; x00]. split; reflexivity.
Defined.

(** ** What the result tells about the model's answer *)

(** X5: whenever the bytes decode and the inference pass answers,
    analyze_pose returns, and the result mirrors the answer: "success" is
    true exactly when the answer carries a landmark collection, and the
    result has a keypoints list, with one record per landmark, in that
    case and no keypoints entry otherwise. *)
Theorem X5_result_mirrors_answer {ext : External}
        (image_data : bytes) (image : RGBImage) (w : world)
        (results : SolutionOutputs) :
  decodes image_data image ->
  inference w image = inr results ->
  exists v w',
    analyze_pose image_data w = (Return v, w')
    /\ success_tag v = Some (truthy (pose_landmarks results))
    /\ keypoint_count v
       = option_map (fun lms => List.length (landmark lms)) (pose_landmarks results).
Proof.
  intros Hdec Hinf.
  rewrite (analyze_pose_decoded w Hdec), Hinf.
  destruct (pose_landmarks results) as [lms|]; do 2 eexists;
    (split; [reflexivity|]); split; try reflexivity.
  unfold keypoint_count. simpl. now rewrite collect_keypoints_length.
Qed.

Lemma X5_result_mirrors_answer_witness :
  exists v w',
    @analyze_pose head_and_hip_env red_pixel_ppm [] = (Return v, w')
    /\ success_tag v = Some (truthy (pose_landmarks (detect [centre; nose])))
    /\ keypoint_count v
       = option_map (fun lms => List.length (landmark lms))
                    (pose_landmarks (detect [centre; nose])).
Proof.
  apply (@X5_result_mirrors_answer head_and_hip_env red_pixel_ppm red_image []).
  - exists [xff; x00; x00]. split; reflexivity.
  - reflexivity.
Defined.

(** X6: the ids carry nothing but the position.  Two success results
    with the same number of keypoints have the same sequence of ids,
    whatever the images, the models and the coordinates were; and a
    result that has as many keypoints as a success result is itself a
    success result. *)
Theorem X6_ids_fixed_by_count (ext1 ext2 : External)
        (data1 data2 : bytes) (w1 w1' w2 w2' : world) (v1 v2 : pyval) :
  @analyze_pose ext1 data1 w1 = (Return v1, w1') ->
  @analyze_pose ext2 data2 w2 = (Return v2, w2') ->
  success_tag v1 = Some true ->
  keypoint_count v1 = keypoint_count v2 ->
  success_tag v2 = Some true /\ keypoint_ids v1 = keypoint_ids v2.
Proof.
  intros Hrun1 Hrun2 Htag Hcount.
  destruct (success_result_inv _ _ Hrun1 Htag)
    as [image1 [results1 [lms1 [_ [_ [_ Hv1]]]]]].
  destruct (analyze_pose_returns_inv _ _ Hrun2)
    as [image2 [results2 [_ [_ Hv2]]]].
  subst v1. destruct (pose_landmarks results2) as [lms2|]; subst v2.
  - split; [reflexivity|].
    unfold keypoint_count, keypoint_ids in *. simpl in *.
    injection Hcount as Hlen. rewrite !collect_keypoints_length in Hlen.
    now rewrite !collect_keypoints_ids, Hlen.
  - discriminate.
Qed.

Lemma X6_ids_fixed_by_count_witness :
  let v1 := pose_found (collect_keypoints [nose; wrist_out_of_frame]) in
  let v2 := pose_found (collect_keypoints [centre; nose]) in
  success_tag v2 = Some true /\ keypoint_ids v1 = keypoint_ids v2.
Proof.
  apply (@X6_ids_fixed_by_count leaning_out_env head_and_hip_env
           red_pixel_ppm red_pixel_ppm
           [] [PoseEnter true; PoseProcess [[(0, 0, 255)]]; PoseExit]
           [] [PoseEnter true; PoseProcess [[(0, 0, 255)]]; PoseExit]).
  - reflexivity.
  - reflexivity.
  - reflexivity.
  - reflexivity.
Defined.

(** ** The route and the upload's metadata *)

(** X7: the route looks at nothing but the uploaded bytes: two uploads
    with the same content, whatever their file names and declared
    content types, get the same outcome and leave the same log. *)
Theorem X7_route_ignores_metadata {ext : External}
        (upload1 upload2 : UploadFile) (w : world) :
  file upload1 = file upload2 ->
  analyze_image upload1 w = analyze_image upload2 w.
Proof.
  intros Hfile. rewrite !analyze_image_is_analyze_pose. now rewrite Hfile.
Qed.

Lemma X7_route_ignores_metadata_witness :
  @analyze_image full_body_env (upload_of red_pixel_ppm) []
  = @analyze_image full_body_env
      (mkUploadFile "notes.txt" "text/plain" red_pixel_ppm) [].
Proof.
  apply (@X7_route_ignores_metadata full_body_env).
  reflexivity.
Defined.
